(** * Dropdown widgets, starter messages and root layout of the web client

    A shallow embedding of
    - [web/src/components/Dropdown.tsx]
      ([SearchMultiSelectDropdown], [CustomDropdown], [ControlledPopup],
      [DefaultDropdown]),
    - [web/src/components/assistants/StarterMessage.tsx] ([StarterMessages]),
    - the root layout of the application ([RootLayout],
      [generateMetadata]).

    React components are modelled as their state (the [useState] cells), the
    event handlers built by one render (closures over the rendered state and
    the props), and the list of rows that render produces.  Calls of
    caller-supplied callbacks are recorded in a log, in call order. *)

From Stdlib Require Import String Ascii List Bool Arith ZArith Lia.
Import ListNotations.
Open Scope string_scope.
Open Scope list_scope.
Open Scope nat_scope.
Open Scope bool_scope.

(** ** The built-in string methods the components use

    A JavaScript string is a sequence of UTF-16 code units.  The model covers
    the strings whose code units are all below 256 (one [ascii] per unit); on
    these, [toLowerCase] maps unit by unit and the tables below are the
    ECMAScript ones. *)
Module JS.

(** [String.prototype.toLowerCase], on a single code unit below 256:
    A-Z and U+00C0-U+00DE (without U+00D7, the multiplication sign) move
    up by 32. *)
Definition lowerUnit (c : ascii) : ascii :=
  let n := nat_of_ascii c in
  if ((65 <=? n) && (n <=? 90))
     || ((192 <=? n) && (n <=? 222) && negb (n =? 215))
  then ascii_of_nat (n + 32)
  else c.

Fixpoint toLowerCase (s : string) : string :=
  match s with
  | EmptyString => EmptyString
  | String c s' => String (lowerUnit c) (toLowerCase s')
  end.

(** [String.prototype.startsWith] with position 0. *)
Fixpoint startsWith (s t : string) : bool :=
  match t, s with
  | EmptyString, _ => true
  | String _ _, EmptyString => false
  | String b t', String a s' => Ascii.eqb a b && startsWith s' t'
  end.

(** [String.prototype.includes]: [t] occurs in [s] at some position. *)
Fixpoint includes (s t : string) : bool :=
  startsWith s t
  || match s with
     | EmptyString => false
     | String _ s' => includes s' t
     end.

(** White space and line terminators below 256: TAB, LF, VT, FF, CR,
    SPACE, NO-BREAK SPACE. *)
Definition isWhiteSpace (c : ascii) : bool :=
  let n := nat_of_ascii c in
  ((9 <=? n) && (n <=? 13)) || (n =? 32) || (n =? 160).

Fixpoint trimStart (s : string) : string :=
  match s with
  | EmptyString => EmptyString
  | String c s' => if isWhiteSpace c then trimStart s' else s
  end.

Fixpoint trimEnd (s : string) : string :=
  match s with
  | EmptyString => EmptyString
  | String c s' =>
      match trimEnd s' with
      | EmptyString => if isWhiteSpace c then EmptyString
                       else String c EmptyString
      | r => String c r
      end
  end.

(** [String.prototype.trim]. *)
Definition trim (s : string) : string := trimEnd (trimStart s).

(** Truthiness of a string used as a condition: only [""] is falsy. *)
Definition truthy (s : string) : bool :=
  match s with
  | EmptyString => false
  | String _ _ => true
  end.

(** [a === b] on strings. *)
Definition strictEq (a b : string) : bool := String.eqb a b.

End JS.

(** ** Option model *)

(** [string | number]: the value an option carries.  Numbers are compared
    only by identity here, so an integer stands for the number. *)
Inductive StringOrNumber : Type :=
| Str (s : string)
| Num (n : Z).

Definition StringOrNumber_eqb (a b : StringOrNumber) : bool :=
  match a, b with
  | Str s, Str t => String.eqb s t
  | Num n, Num m => Z.eqb n m
  | _, _ => false
  end.

(** [Option<string | number>]; [metadata] and [icon] only feed custom
    renderers and are left out. *)
Record StringOrNumberOption : Type := mkOption {
  name : string;
  value : StringOrNumber;
  description : option string
}.

(** What a caller-supplied callback can be handed by this file. *)
Inductive Arg : Type :=
| ArgOption (o : StringOrNumberOption)
| ArgValue (v : StringOrNumber)
| ArgNull
| ArgString (s : string).

(** One invocation of a caller-supplied callback. *)
Inductive Call : Type :=
| Call_onSelect (a : Arg)
| Call_onCreateLabel (a : Arg)
| Call_onSubmit (a : Arg).

(** ** Event handlers

    A handler runs on the component state and yields the next state together
    with the callback invocations it made, oldest first. *)
Section Handlers.
Context {St : Type}.

Definition Handler : Type := St -> St * list Call.

Definition noop : Handler := fun s => (s, []).

Definition invoke (c : Call) : Handler := fun s => (s, [c]).

Definition update (f : St -> St) : Handler := fun s => (f s, []).

Definition andThen (h k : Handler) : Handler :=
  fun s =>
    let '(s1, c1) := h s in
    let '(s2, c2) := k s1 in
    (s2, c1 ++ c2).

Definition when (b : bool) (h : Handler) : Handler :=
  if b then h else noop.

Definition ifElse (b : bool) (h k : Handler) : Handler :=
  if b then h else k.
End Handlers.
Arguments Handler St : clear implicits.

Declare Scope handler_scope.
Delimit Scope handler_scope with handler.
Notation "h ;; k" := (andThen h k)
  (at level 61, right associativity) : handler_scope.
Open Scope handler_scope.

(** ** DOM regions *)

(** A DOM node, and the set of nodes in the subtree of a mounted element
    ([element.contains(node)]). *)
Definition Node : Type := nat.
Definition Region : Type := Node -> bool.

(** [ref.current]: [None] while the element is not mounted. *)
Definition Ref : Type := option Region.

(** [ref.current] used as a condition. *)
Definition mounted (r : Ref) : bool :=
  match r with
  | Some _ => true
  | None => false
  end.

(** [ref.current.contains(target)], evaluated behind the null test. *)
Definition contains (r : Ref) (target : Node) : bool :=
  match r with
  | Some region => region target
  | None => false
  end.

(** [array.map((x, index) => f index x)], counting from [i]. *)
Fixpoint mapi {A B : Type} (f : nat -> A -> B) (i : nat) (l : list A)
  : list B :=
  match l with
  | [] => []
  | x :: l' => f i x :: mapi f (S i) l'
  end.

(** ** SearchMultiSelectDropdown *)
Module SearchMultiSelectDropdown.

(** The optional props are callbacks and renderers: only whether they are
    supplied matters. *)
Record Props : Type := {
  options : list StringOrNumberOption;
  itemComponent : bool;
  onCreateLabel : bool
}.

Record State : Type := {
  isOpen : bool;
  searchTerm : string
}.

(** [useState(false)], [useState("")]. *)
Definition initial : State := {| isOpen := false; searchTerm := "" |}.

Definition setIsOpen (b : bool) : Handler State :=
  update (fun s => {| isOpen := b; searchTerm := searchTerm s |}).

Definition setSearchTerm (t : string) : Handler State :=
  update (fun s => {| isOpen := isOpen s; searchTerm := t |}).

Definition handleSelect (option : StringOrNumberOption) : Handler State :=
  invoke (Call_onSelect (ArgOption option)) ;;
  setIsOpen false ;;
  setSearchTerm "".

Definition filteredOptions (p : Props) (s : State)
  : list StringOrNumberOption :=
  filter
    (fun option =>
       JS.includes (JS.toLowerCase (name option))
                   (JS.toLowerCase (searchTerm s)))
    (options p).

Definition handleClickOutside (dropdownRef dropdownMenuRef : Ref)
           (target : Node) : Handler State :=
  when (mounted dropdownRef
        && negb (contains dropdownRef target)
        && mounted dropdownMenuRef
        && negb (contains dropdownMenuRef target))
    (setIsOpen false).

(** The input's [onChange], with [v] for [e.target.value]. *)
Definition onChange (v : string) : Handler State :=
  setSearchTerm v ;;
  ifElse (JS.truthy v) (setIsOpen true) (setIsOpen false).

Definition onFocus : Handler State := setIsOpen true.

(** The chevron button's [onClick]; [isOpen] is the rendered one. *)
Definition onToggle (rendered : State) : Handler State :=
  setIsOpen (negb (isOpen rendered)).

(** The rows of the menu, top to bottom. *)
Inductive MenuItem : Type :=
| OptionItem (index : nat) (option : StringOrNumberOption)
| CreateLabelItem (term : string)
| NoMatchesFound.

Definition showCreateLabel (p : Props) (s : State) : bool :=
  onCreateLabel p
  && negb (JS.strictEq (JS.trim (searchTerm s)) "")
  && negb (existsb
             (fun option =>
                JS.strictEq (JS.toLowerCase (name option))
                            (JS.toLowerCase (searchTerm s)))
             (filteredOptions p s)).

Definition showNoMatches (p : Props) (s : State) : bool :=
  (length (filteredOptions p s) =? 0)
  && (negb (onCreateLabel p) || JS.strictEq (JS.trim (searchTerm s)) "").

Definition menu (p : Props) (s : State) : list MenuItem :=
  mapi OptionItem 0 (filteredOptions p s)
  ++ (if showCreateLabel p s then [CreateLabelItem (searchTerm s)] else [])
  ++ (if showNoMatches p s then [NoMatchesFound] else []).

(** The portal is rendered only while open. *)
Definition render (p : Props) (s : State) : option (list MenuItem) :=
  if isOpen s then Some (menu p s) else None.

(** [onClick] of a row rendered from state [rendered]. *)
Definition onClick (rendered : State) (item : MenuItem) : Handler State :=
  match item with
  | OptionItem _ option => handleSelect option
  | CreateLabelItem _ =>
      invoke (Call_onCreateLabel (ArgString (searchTerm rendered))) ;;
      setIsOpen false ;;
      setSearchTerm ""
  | NoMatchesFound => noop
  end.

(** Where the two referenced elements sit once mounted: the root [div]
    of the widget, and the menu [div] portalled into [document.body]. *)
Record Dom : Type := {
  dropdownDiv : Region;
  menuDiv : Region
}.

Definition dropdownRef (d : Dom) : Ref := Some (dropdownDiv d).

Definition dropdownMenuRef (d : Dom) (s : State) : Ref :=
  if isOpen s then Some (menuDiv d) else None.

Inductive Event : Type :=
| Change (v : string)
| Focus
| ToggleClick
| MouseDown (target : Node)
| Click (i : nat).

(** One event delivered to the widget rendered from [s]. *)
Definition dispatch (p : Props) (d : Dom) (e : Event) : Handler State :=
  fun s =>
    match e with
    | Change v => onChange v s
    | Focus => onFocus s
    | ToggleClick => onToggle s s
    | MouseDown target =>
        handleClickOutside (dropdownRef d) (dropdownMenuRef d s) target s
    | Click i =>
        match render p s with
        | Some items =>
            match nth_error items i with
            | Some item => onClick s item s
            | None => noop s
            end
        | None => noop s
        end
    end.

(** The React key of an option row: the option's name on the [div] around
    a custom [itemComponent], the row index on [StandardDropdownOption]. *)
Inductive Key : Type :=
| KeyName (name : string)
| KeyIndex (index : nat).

Definition optionKey (p : Props) (index : nat)
           (option : StringOrNumberOption) : Key :=
  if itemComponent p then KeyName (name option) else KeyIndex index.

(** The keys of the option rows of one render, top to bottom. *)
Definition optionKeys (p : Props) (s : State) : list Key :=
  mapi (optionKey p) 0 (filteredOptions p s).

(** The events of [events] delivered one after the other, each to the
    widget as rendered from the state the one before left. *)
Fixpoint run (p : Props) (d : Dom) (events : list Event) : Handler State :=
  match events with
  | [] => noop
  | e :: rest => dispatch p d e ;; run p d rest
  end.

End SearchMultiSelectDropdown.

(** ** The filter beyond code units below 256

    [toLowerCase] is not a unit-by-unit map on all strings: a capital sigma
    becomes a final sigma where the Final_Sigma condition of Unicode
    holds.  This is the filter of [SearchMultiSelectDropdown] on names and
    terms written with five Greek code units. *)
Module Greek.

(** U+0391 capital alpha, U+03A3 capital sigma, U+03B1 small alpha,
    U+03C2 small final sigma, U+03C3 small sigma. *)
Inductive unit : Type := U0391 | U03A3 | U03B1 | U03C2 | U03C3.

Definition unit_eqb (a b : unit) : bool :=
  match a, b with
  | U0391, U0391 | U03A3, U03A3 | U03B1, U03B1
  | U03C2, U03C2 | U03C3, U03C3 => true
  | _, _ => false
  end.

(** All five units are cased letters and none is case-ignorable, so a
    capital sigma is in final position exactly when a unit stands before
    it and none after it. *)
Definition followedByCased (rest : list unit) : bool :=
  match rest with
  | [] => false
  | _ :: _ => true
  end.

Fixpoint lower (precededByCased : bool) (s : list unit) : list unit :=
  match s with
  | [] => []
  | u :: rest =>
      match u with
      | U0391 => U03B1
      | U03A3 =>
          if precededByCased && negb (followedByCased rest)
          then U03C2
          else U03C3
      | _ => u
      end :: lower true rest
  end.

(** [String.prototype.toLowerCase]. *)
Definition toLowerCase (s : list unit) : list unit := lower false s.

(** [String.prototype.startsWith] with position 0. *)
Fixpoint startsWith (s t : list unit) : bool :=
  match t, s with
  | [], _ => true
  | _ :: _, [] => false
  | b :: t', a :: s' => unit_eqb a b && startsWith s' t'
  end.

(** [String.prototype.includes]. *)
Fixpoint includes (s t : list unit) : bool :=
  startsWith s t
  || match s with
     | [] => false
     | _ :: s' => includes s' t
     end.

Record Option : Type := {
  name : list unit;
  value : StringOrNumber
}.

Definition filteredOptions (options : list Option) (searchTerm : list unit)
  : list Option :=
  filter
    (fun option =>
       includes (toLowerCase (name option)) (toLowerCase searchTerm))
    options.

End Greek.

(** ** CustomDropdown *)
Module CustomDropdown.

Record State : Type := { isOpen : bool }.

Definition initial : State := {| isOpen := false |}.

Definition setIsOpen (b : bool) : Handler State :=
  update (fun _ => {| isOpen := b |}).

Definition handleClickOutside (dropdownRef : Ref) (target : Node)
  : Handler State :=
  when (mounted dropdownRef && negb (contains dropdownRef target))
    (setIsOpen false).

(** [onClick] of the trigger wrapper and of the panel. *)
Definition onToggle (rendered : State) : Handler State :=
  setIsOpen (negb (isOpen rendered)).

(** The root [div] holds the trigger wrapper and, while open, the panel:
    [anchor] is the root with the trigger, [panel] the floating [div]. *)
Record Dom : Type := {
  anchor : Region;
  panel : Region
}.

Definition dropdownRef (d : Dom) (s : State) : Ref :=
  Some (fun n => anchor d n || (isOpen s && panel d n)).

End CustomDropdown.

(** ** ControlledPopup *)
Module ControlledPopup.

(** The open flag is a prop; [setIsOpen] is the owner's, and a call of it
    is all the component does. *)
Inductive OwnerCall : Type :=
| Call_setIsOpen (value : bool).

Definition handleClickOutside (filtersRef : Ref) (target : Node)
  : list OwnerCall :=
  if mounted filtersRef && negb (contains filtersRef target)
  then [Call_setIsOpen false]
  else [].

(** The root [div] holds the children and, while open, the popup. *)
Record Dom : Type := {
  children : Region;
  popup : Region
}.

Definition filtersRef (d : Dom) (isOpen : bool) : Ref :=
  Some (fun n => children d n || (isOpen && popup d n)).

End ControlledPopup.

(** ** DefaultDropdown *)
Module DefaultDropdown.

(** [selected : string | null]; the optional [includeDefault] is absent
    ([None]) or a boolean. *)
Record Props : Type := {
  options : list StringOrNumberOption;
  selected : option string;
  includeDefault : option bool;
  defaultValue : option string
}.

Record State : Type := { isOpen : bool }.

Definition initial : State := {| isOpen := false |}.

Definition setIsOpen (b : bool) : Handler State :=
  update (fun _ => {| isOpen := b |}).

Definition handleSelect (value : Arg) : Handler State :=
  invoke (Call_onSelect value) ;;
  setIsOpen false.

(** The props handed to one [DefaultDropdownElement]. *)
Record Element : Type := {
  el_name : string;
  el_description : option string;
  el_onSelect : Handler State;
  el_isSelected : bool
}.

(** [option.value === selected]. *)
Definition valueIsSelected (v : StringOrNumber) (sel : option string)
  : bool :=
  match sel with
  | Some s => StringOrNumber_eqb v (Str s)
  | None => false
  end.

(** [selected === null]. *)
Definition isNull (sel : option string) : bool :=
  match sel with
  | Some _ => false
  | None => true
  end.

Definition flag (b : option bool) : bool :=
  match b with
  | Some true => true
  | _ => false
  end.

Definition defaultElement (p : Props) : Element :=
  {| el_name := "Default";
     el_description := None;
     el_onSelect := handleSelect ArgNull;
     el_isSelected := isNull (selected p) |}.

Definition optionElement (p : Props) (option : StringOrNumberOption)
  : Element :=
  {| el_name := name option;
     el_description := description option;
     el_onSelect := handleSelect (ArgValue (value option));
     el_isSelected := valueIsSelected (value option) (selected p) |}.

(** The children of the popover panel, top to bottom. *)
Definition Dropdown (p : Props) : list Element :=
  (if flag (includeDefault p) then [defaultElement p] else [])
  ++ map (optionElement p) (options p).

(** [onClick] of the [div] around the popover; [isOpen] is the rendered
    one. *)
Definition onToggle (rendered : State) : Handler State :=
  setIsOpen (negb (isOpen rendered)).

(** A click on a row: the row's own handler, then the click bubbles to
    the [div] around the popover. *)
Definition clickElement (rendered : State) (e : Element) : Handler State :=
  el_onSelect e ;; onToggle rendered.

(** [options.find((option) => option.value === selected)]. *)
Definition selectedOption (p : Props) : option StringOrNumberOption :=
  find (fun option => valueIsSelected (value option) (selected p))
       (options p).

(** [a || b] with [a] a string that may be absent. *)
Definition orElse (a : option string) (b : string) : string :=
  match a with
  | Some s => if JS.truthy s then s else b
  | None => b
  end.

(** The text on the trigger. *)
Definition Content (p : Props) : string :=
  orElse (option_map name (selectedOption p))
         (if flag (includeDefault p)
          then orElse (defaultValue p) "Default"
          else "Select an option...").

End DefaultDropdown.

(** ** StarterMessages *)
Module StarterMessages.

Record StarterMessage : Type := {
  sm_name : string;
  message : string
}.

(** [starter_messages] may be [null]. *)
Record Persona : Type := {
  starter_messages : option (list StarterMessage)
}.

(** The part of the settings context this component reads. *)
Record Settings : Type := {
  isMobile : option bool
}.

(** [settings?.isMobile] used as a condition. *)
Definition mobile (settings : option Settings) : bool :=
  match settings with
  | Some st =>
      match isMobile st with
      | Some true => true
      | _ => false
      end
  | None => false
  end.

(** One rendered button: its label and its [onClick]. *)
Record Button : Type := {
  label : string;
  onClick : Handler unit
}.

Definition button (starterMessage : StarterMessage) : Button :=
  {| label := sm_name starterMessage;
     onClick := invoke (Call_onSubmit (ArgString (message starterMessage))) |}.

(** [array.slice(0, n)]. *)
Definition slice0 {A : Type} (n : nat) (l : list A) : list A := firstn n l.

(** The starter messages that get a button, in rendering order. *)
Definition shown (settings : option Settings) (currentPersona : option Persona)
  : list StarterMessage :=
  match currentPersona with
  | Some persona =>
      match starter_messages persona with
      | Some msgs =>
          if 0 <? length msgs
          then slice0 (if mobile settings then 2 else 4) msgs
          else []
      | None => []
      end
  | None => []
  end.

Definition render (settings : option Settings)
           (currentPersona : option Persona) : list Button :=
  map button (shown settings currentPersona).

End StarterMessages.

(** ** RootLayout *)
Module RootLayout.

(** A rendered tree: text, or an element or component with its children.
    Attributes that only style are left out. *)
#[local] Unset Elimination Schemes.
Inductive Html : Type :=
| Text (s : string)
| Element (tag : string) (children : list Html).
#[local] Set Elimination Schemes.

Fixpoint textContent (h : Html) : string :=
  match h with
  | Text s => s
  | Element _ children => String.concat "" (map textContent children)
  end.

Fixpoint hasElement (tag : string) (h : Html) : bool :=
  match h with
  | Text _ => false
  | Element t children =>
      String.eqb t tag || existsb (hasElement tag) children
  end.

(** Modelled from the spec: the declaration of [GatingType] is not part
    of the sources; the gating check returns one of no restriction and
    fully restricted. *)
Inductive GatingType : Type := NONE | FULL.

Definition GatingType_eqb (a b : GatingType) : bool :=
  match a, b with
  | NONE, NONE | FULL, FULL => true
  | _, _ => false
  end.

Record Settings : Type := {
  product_gating : option GatingType
}.

Record CombinedSettings : Type := {
  settings : Settings;
  customAnalyticsScript : option string
}.

(** The build-time switches the layout reads. *)
Record Constants : Type := {
  CUSTOM_ANALYTICS_ENABLED : bool;
  GTM_ENABLED : bool
}.

(** What the three server-side fetches answer: the settings fetch answers
    [None] when there are no settings to be had. *)
Record Server : Type := {
  settingsAnswer : option CombinedSettings;
  assistantsAnswer : list string;
  userAnswer : option string
}.

Inductive Fetch : Type :=
| Fetch_fetchSettingsSS
| Fetch_fetchAssistantData
| Fetch_getCurrentUserSS.

Definition Fetch_eqb (a b : Fetch) : bool :=
  match a, b with
  | Fetch_fetchSettingsSS, Fetch_fetchSettingsSS
  | Fetch_fetchAssistantData, Fetch_fetchAssistantData
  | Fetch_getCurrentUserSS, Fetch_getCurrentUserSS => true
  | _, _ => false
  end.

(** An asynchronous computation against the server, with the fetches it
    started, oldest first. *)
Definition Async (A : Type) : Type := Server -> A * list Fetch.

Definition ret {A : Type} (a : A) : Async A := fun _ => (a, []).

Definition bind {A B : Type} (m : Async A) (k : A -> Async B) : Async B :=
  fun srv =>
    let '(a, l1) := m srv in
    let '(b, l2) := k a srv in
    (b, l1 ++ l2).

Definition fetchSettingsSS : Async (option CombinedSettings) :=
  fun srv => (settingsAnswer srv, [Fetch_fetchSettingsSS]).

Definition fetchAssistantData : Async (list string) :=
  fun srv => (assistantsAnswer srv, [Fetch_fetchAssistantData]).

Definition getCurrentUserSS : Async (option string) :=
  fun srv => (userAnswer srv, [Fetch_getCurrentUserSS]).

(** [await Promise.all([a, b, c])]. *)
Definition all3 {A B C : Type} (a : Async A) (b : Async B) (c : Async C)
  : Async (A * B * C) :=
  bind a (fun x => bind b (fun y => bind c (fun z => ret (x, y, z)))).

Definition getPageContent (k : Constants)
           (combinedSettings : option CombinedSettings) (content : Html)
  : Html :=
  let analytics :=
    match combinedSettings with
    | Some cs =>
        match customAnalyticsScript cs with
        | Some script =>
            if CUSTOM_ANALYTICS_ENABLED k && JS.truthy script
            then [Element "script" [Text script]]
            else []
        | None => []
        end
    | None => []
    end in
  let gtm := if GTM_ENABLED k then [Element "Script" []] else [] in
  Element "html"
    [ Element "head" ([Element "meta" []] ++ analytics ++ gtm);
      Element "body"
        [ Element "div" [ Element "PHProvider" [content] ] ] ].

Definition configurationError : Html :=
  Element "div"
    [ Element "div" [ Element "LogoType" [] ];
      Element "CardSection"
        [ Element "h1" [ Text "Error" ];
          Element "p"
            [ Text "Your Onyx instance was not configured properly and your settings could not be loaded. This could be due to an admin configuration issue, an incomplete setup, or backend services that may not be up and running yet." ];
          Element "p"
            [ Text "If you're an admin, please check";
              Text " ";
              Element "a" [ Text "our docs" ];
              Text " ";
              Text "to see how to configure Onyx properly. If you're a user, please contact your admin to fix this error." ];
          Element "p"
            [ Text "For additional support and guidance, you can reach out to our community on";
              Text " ";
              Element "a" [ Text "Slack" ];
              Text "." ] ] ].

Definition accessRestricted : Html :=
  Element "div"
    [ Element "div" [ Element "LogoType" [] ];
      Element "CardSection"
        [ Element "h1" [ Text "Access Restricted" ];
          Element "p"
            [ Text "We regret to inform you that your access to Onyx has been temporarily suspended due to a lapse in your subscription." ];
          Element "p"
            [ Text "To reinstate your access and continue benefiting from Onyx's powerful features, please update your payment information." ];
          Element "p"
            [ Text "If you're an admin, you can resolve this by visiting the billing section. For other users, please reach out to your administrator to address this matter." ] ] ].

Definition application (children : Html) : Html :=
  Element "AppProvider"
    [ Element "Suspense" [ Element "PostHogPageView" [] ];
      children ].

Definition RootLayout (k : Constants) (children : Html) : Async Html :=
  bind (all3 fetchSettingsSS fetchAssistantData getCurrentUserSS)
    (fun '(combinedSettings, assistantsData, user) =>
       let productGating :=
         match combinedSettings with
         | Some cs =>
             match product_gating (settings cs) with
             | Some g => g
             | None => NONE
             end
         | None => NONE
         end in
       match combinedSettings with
       | None => ret (getPageContent k combinedSettings configurationError)
       | Some _ =>
           if GatingType_eqb productGating FULL
           then ret (getPageContent k combinedSettings accessRestricted)
           else ret (getPageContent k combinedSettings
                       (application children))
       end).

(** The two fields of the enterprise settings that [generateMetadata]
    reads: the name may be [null], the logo switch is used as a condition. *)
Record EnterpriseSettings : Type := {
  application_name : option string;
  use_custom_logo : bool
}.

Record Metadata : Type := {
  title : string;
  description : string;
  icon : string
}.

Inductive EnterpriseFetch : Type :=
| Fetch_fetchEnterpriseSettingsSS.

(** [paid] is [SERVER_SIDE_ONLY__PAID_ENTERPRISE_FEATURES_ENABLED],
    [buildClientUrl] the helper of that name, [answer] the JSON the
    enterprise settings fetch answers with. *)
Definition generateMetadata (paid : bool) (buildClientUrl : string -> string)
           (answer : option EnterpriseSettings)
  : Metadata * list EnterpriseFetch :=
  let logoLocation := buildClientUrl "/onyx.ico" in
  let '(enterpriseSettings, logoLocation, fetches) :=
    if paid
    then (answer,
          match answer with
          | Some es =>
              if use_custom_logo es
              then "/api/enterprise-settings/logo"
              else buildClientUrl "/onyx.ico"
          | None => buildClientUrl "/onyx.ico"
          end,
          [Fetch_fetchEnterpriseSettingsSS])
    else (None, logoLocation, []) in
  ({| title :=
        match enterpriseSettings with
        | Some es =>
            match application_name es with
            | Some n => n
            | None => "Onyx"
            end
        | None => "Onyx"
        end;
      description := "Question answering for your documents";
      icon := logoLocation |},
   fetches).

End RootLayout.

(** ** What the claims are measured against *)

(** [t] occurs in [s]. *)
Definition Occurs (s t : string) : Prop :=
  exists pre post, s = (pre ++ t ++ post)%string.

(** Two strings are equal up to case. *)
Definition EqualUpToCase (a b : string) : Prop :=
  JS.toLowerCase a = JS.toLowerCase b.

(** [n] has a substring equal to [t] up to case. *)
Definition OccursUpToCase (n t : string) : Prop :=
  exists pre mid post,
    n = (pre ++ mid ++ post)%string /\ EqualUpToCase mid t.




(** The option rows of [p] have distinct keys in every render: they are
    keyed by their index, or by names of which no two are equal.  Only
    then are the rows on screen the rows of the last render. *)
Definition DistinctKeys (p : SearchMultiSelectDropdown.Props) : Prop :=
  SearchMultiSelectDropdown.itemComponent p = false
  \/ NoDup (map name (SearchMultiSelectDropdown.options p)).


(** A callback invocation [SearchMultiSelectDropdown] may make on props
    [p]: the selection callback on an option of [p]; the creation callback,
    if supplied, on a term that does not trim to nothing and names no
    option of [p] up to case. *)
Definition Legitimate (p : SearchMultiSelectDropdown.Props) (c : Call)
  : Prop :=
  (exists o, c = Call_onSelect (ArgOption o)
             /\ In o (SearchMultiSelectDropdown.options p))
  \/ (exists t, c = Call_onCreateLabel (ArgString t)
        /\ SearchMultiSelectDropdown.onCreateLabel p = true
        /\ JS.trim t <> ""
        /\ forall o, In o (SearchMultiSelectDropdown.options p) ->
                     ~ EqualUpToCase (name o) t).

Definition isClick (e : SearchMultiSelectDropdown.Event) : bool :=
  match e with
  | SearchMultiSelectDropdown.Click _ => true
  | _ => false
  end.

(** ** Concrete inputs

    The inputs the examples below run on. *)

Module Search := SearchMultiSelectDropdown.

Definition Alpha : StringOrNumberOption :=
  {| name := "Alpha"; value := Num 1; description := None |}.
Definition Beta : StringOrNumberOption :=
  {| name := "Beta"; value := Num 2; description := None |}.

Definition twoOptions (create : bool) : Search.Props :=
  {| Search.options := [Alpha; Beta];
     Search.itemComponent := false;
     Search.onCreateLabel := create |}.

Definition noOptions (create : bool) : Search.Props :=
  {| Search.options := [];
     Search.itemComponent := false;
     Search.onCreateLabel := create |}.

Definition openWith (term : string) : Search.State :=
  {| Search.isOpen := true; Search.searchTerm := term |}.

(** Nodes 0-9 belong to the widget root, nodes 10-19 to the menu. *)
Definition someDom : Search.Dom :=
  {| Search.dropdownDiv := fun n => n <? 10;
     Search.menuDiv := fun n => (10 <=? n) && (n <? 20) |}.

Definition defaultProps : DefaultDropdown.Props :=
  {| DefaultDropdown.options := [Alpha; Beta];
     DefaultDropdown.selected := None;
     DefaultDropdown.includeDefault := Some true;
     DefaultDropdown.defaultValue := Some "Default" |}.

Definition customDom : CustomDropdown.Dom :=
  {| CustomDropdown.anchor := fun n => n <? 10;
     CustomDropdown.panel := fun n => (10 <=? n) && (n <? 20) |}.

Definition someConstants : RootLayout.Constants :=
  {| RootLayout.CUSTOM_ANALYTICS_ENABLED := false;
     RootLayout.GTM_ENABLED := true |}.

Definition serverWithoutSettings : RootLayout.Server :=
  {| RootLayout.settingsAnswer := None;
     RootLayout.assistantsAnswer := ["assistant"];
     RootLayout.userAnswer := Some "user" |}.

Definition Unnamed : StringOrNumberOption :=
  {| name := ""; value := Num 3; description := None |}.

Definition withUnnamed : SearchMultiSelectDropdown.Props :=
  {| SearchMultiSelectDropdown.options := [Alpha; Unnamed];
     SearchMultiSelectDropdown.itemComponent := true;
     SearchMultiSelectDropdown.onCreateLabel := false |}.

Definition serverWithScript : RootLayout.Server :=
  {| RootLayout.settingsAnswer :=
       Some {| RootLayout.settings :=
                 {| RootLayout.product_gating := None |};
               RootLayout.customAnalyticsScript := Some "track()" |};
     RootLayout.assistantsAnswer := [];
     RootLayout.userAnswer := None |}.

Definition analyticsOn : RootLayout.Constants :=
  {| RootLayout.CUSTOM_ANALYTICS_ENABLED := true;
     RootLayout.GTM_ENABLED := false |}.

Definition sixMessages : StarterMessages.Persona :=
  let m := fun n =>
    {| StarterMessages.sm_name := n;
       StarterMessages.message := ("about " ++ n)%string |} in
  {| StarterMessages.starter_messages :=
       Some [m "a"; m "b"; m "c"; m "d"; m "e"; m "f"] |}.

(** ** Strings *)

Example toLowerCase_mixed : JS.toLowerCase "Alpha-BETA 42" = "alpha-beta 42".
Proof. reflexivity. Qed.

Example includes_middle :
  JS.includes "alpha" "ph" = true /\ JS.includes "alpha" "hp" = false.
Proof. split; reflexivity. Qed.

Example trim_both_ends :
  JS.trim "  new tag  " = "new tag" /\ JS.trim "   " = "".
Proof. split; reflexivity. Qed.

Lemma startsWith_iff (s t : string) :
  JS.startsWith s t = true <-> exists post, s = (t ++ post)%string.
Proof.
  revert s; induction t as [|b t IH]; intros s.
  - split; [intros _; exists s; reflexivity | intros _; destruct s; reflexivity].
  - destruct s as [|a s]; simpl.
    + split; [discriminate | intros [post H]; discriminate].
    + rewrite andb_true_iff, Ascii.eqb_eq, IH. split.
      * intros [-> [post ->]]. exists post. reflexivity.
      * intros [post H]. injection H as -> ->. split; [reflexivity|].
        exists post. reflexivity.
Qed.

Lemma includes_iff (s t : string) :
  JS.includes s t = true <-> Occurs s t.
Proof.
  unfold Occurs. induction s as [|a s IH].
  - cbn [JS.includes]. rewrite orb_false_r, startsWith_iff. split.
    + intros [post H]. exists EmptyString, post. exact H.
    + intros [pre [post H]]. destruct pre; simpl in H.
      * exists post. exact H.
      * discriminate.
  - cbn [JS.includes]. rewrite orb_true_iff, startsWith_iff, IH. split.
    + intros [[post H] | [pre [post H]]].
      * exists EmptyString, post. exact H.
      * exists (String a pre), post. simpl. now rewrite H.
    + intros [pre [post H]]. destruct pre as [|c pre]; simpl in H.
      * left. exists post. exact H.
      * right. injection H as _ H. exists pre, post. exact H.
Qed.

Lemma toLowerCase_app (a b : string) :
  JS.toLowerCase (a ++ b) = (JS.toLowerCase a ++ JS.toLowerCase b)%string.
Proof.
  induction a as [|c a IH]; simpl; [reflexivity | now rewrite IH].
Qed.

Lemma toLowerCase_split (n a b : string) :
  JS.toLowerCase n = (a ++ b)%string ->
  exists n1 n2,
    n = (n1 ++ n2)%string /\ JS.toLowerCase n1 = a /\ JS.toLowerCase n2 = b.
Proof.
  revert n; induction a as [|c a IH]; intros n H.
  - exists EmptyString, n. repeat split. exact H.
  - destruct n as [|d n]; simpl in H; [discriminate|].
    injection H as Hc Hn. destruct (IH n Hn) as (n1 & n2 & -> & H1 & H2).
    exists (String d n1), n2. simpl. rewrite Hc, H1. repeat split. exact H2.
Qed.

(** On code units below 256 lower-casing goes unit by unit, so that the
    lower-cased name holds the lower-cased term exactly when the name has
    a substring equal to the term up to case. *)
Lemma includes_toLowerCase_iff (n t : string) :
  JS.includes (JS.toLowerCase n) (JS.toLowerCase t) = true
  <-> OccursUpToCase n t.
Proof.
  rewrite includes_iff. unfold Occurs, OccursUpToCase, EqualUpToCase. split.
  - intros (pre & post & H).
    apply toLowerCase_split in H as (n1 & n2 & -> & H1 & H2).
    apply toLowerCase_split in H2 as (n3 & n4 & -> & H3 & H4).
    exists n1, n3, n4. split; [reflexivity | exact H3].
  - intros (pre & mid & post & -> & H).
    exists (JS.toLowerCase pre), (JS.toLowerCase post).
    now rewrite !toLowerCase_app, H.
Qed.


(** ** Lists *)




(** ** SearchMultiSelectDropdown: the filter *)






(** The scenario of the spec: Alpha and Beta searched for "al". *)
Example filteredOptions_Alpha_Beta :
  let Alpha := {| name := "Alpha"; value := Num 1; description := None |} in
  let Beta := {| name := "Beta"; value := Num 2; description := None |} in
  SearchMultiSelectDropdown.filteredOptions
    {| SearchMultiSelectDropdown.options := [Alpha; Beta];
       SearchMultiSelectDropdown.itemComponent := false;
       SearchMultiSelectDropdown.onCreateLabel := false |}
    {| SearchMultiSelectDropdown.isOpen := true;
       SearchMultiSelectDropdown.searchTerm := "al" |}
  = [Alpha].
Proof. reflexivity. Qed.

(** ** Selecting a row *)

Section SearchMultiSelectDropdownProofs.
Import SearchMultiSelectDropdown.

Lemma In_mapi_OptionItem (x : MenuItem) (i : nat)
      (l : list StringOrNumberOption) :
  In x (mapi OptionItem i l) -> exists j o, x = OptionItem j o /\ In o l.
Proof.
  revert i; induction l as [|o l IH]; intros i; simpl; [tauto|].
  intros [<- | H].
  - exists i, o. split; [reflexivity | now left].
  - destruct (IH _ H) as (j & o' & -> & Ho). exists j, o'.
    split; [reflexivity | now right].
Qed.

Lemma In_menu_OptionItem (p : Props) (s : State) (j : nat)
      (o : StringOrNumberOption) :
  In (OptionItem j o) (menu p s) -> In o (filteredOptions p s).
Proof.
  unfold menu. rewrite !in_app_iff. intros [H | [H | H]].
  - apply In_mapi_OptionItem in H as (j' & o' & E & Ho).
    injection E as _ ->. exact Ho.
  - destruct (showCreateLabel p s); simpl in H; [|tauto].
    destruct H as [H | []]; discriminate.
  - destruct (showNoMatches p s); simpl in H; [|tauto].
    destruct H as [H | []]; discriminate.
Qed.

(** C2, as the code has it: a click on a rendered option row of
    [SearchMultiSelectDropdown] calls the selection callback once, with
    the option itself, closes the widget and clears the search term; a
    rendered option row of [DefaultDropdown] calls it once with the
    option's value and closes the widget (also after the click has
    bubbled to the toggling [div] of the open widget). *)
Theorem C2_select_calls_once_and_closes :
  forall (p : Search.Props) (d : Search.Dom) (s : Search.State)
         (items : list MenuItem) (i index : nat) (o : StringOrNumberOption)
         (q : DefaultDropdown.Props) (t : DefaultDropdown.State)
         (o' : StringOrNumberOption),
    render p s = Some items ->
    nth_error items i = Some (OptionItem index o) ->
    In o' (DefaultDropdown.options q) ->
    (In o (Search.options p)
     /\ dispatch p d (Click i) s
        = ({| isOpen := false; searchTerm := "" |},
           [Call_onSelect (ArgOption o)]))
    /\ (In (DefaultDropdown.optionElement q o') (DefaultDropdown.Dropdown q)
        /\ DefaultDropdown.el_onSelect (DefaultDropdown.optionElement q o') t
           = ({| DefaultDropdown.isOpen := false |},
              [Call_onSelect (ArgValue (value o'))])
        /\ DefaultDropdown.clickElement {| DefaultDropdown.isOpen := true |}
             (DefaultDropdown.optionElement q o')
             {| DefaultDropdown.isOpen := true |}
           = ({| DefaultDropdown.isOpen := false |},
              [Call_onSelect (ArgValue (value o'))])).
Proof.
  intros p d s items i index o q t o' Hr Hn Ho'. split; [split|].
  - unfold render in Hr. destruct (isOpen s); [|discriminate].
    injection Hr as <-. apply nth_error_In in Hn.
    apply In_menu_OptionItem in Hn. unfold filteredOptions in Hn.
    apply filter_In in Hn. tauto.
  - unfold dispatch. rewrite Hr, Hn. reflexivity.
  - split; [|split; reflexivity].
    unfold DefaultDropdown.Dropdown. apply in_or_app. right.
    now apply in_map.
Qed.

Lemma C2_select_calls_once_and_closes_witness :
  (In Alpha (Search.options (twoOptions false))
   /\ dispatch (twoOptions false) someDom (Click 0) (openWith "al")
      = ({| isOpen := false; searchTerm := "" |},
         [Call_onSelect (ArgOption Alpha)]))
  /\ (In (DefaultDropdown.optionElement defaultProps Beta)
         (DefaultDropdown.Dropdown defaultProps)
      /\ DefaultDropdown.el_onSelect
           (DefaultDropdown.optionElement defaultProps Beta)
           {| DefaultDropdown.isOpen := true |}
         = ({| DefaultDropdown.isOpen := false |},
            [Call_onSelect (ArgValue (Num 2))])
      /\ DefaultDropdown.clickElement {| DefaultDropdown.isOpen := true |}
           (DefaultDropdown.optionElement defaultProps Beta)
           {| DefaultDropdown.isOpen := true |}
         = ({| DefaultDropdown.isOpen := false |},
            [Call_onSelect (ArgValue (Num 2))])).
Proof.
  apply (C2_select_calls_once_and_closes
           (twoOptions false) someDom (openWith "al")
           [OptionItem 0 Alpha] 0 0 Alpha
           defaultProps {| DefaultDropdown.isOpen := true |} Beta).
  - reflexivity.
  - reflexivity.
  - simpl. right. left. reflexivity.
Defined.

(** C2 as stated fails for [SearchMultiSelectDropdown]: with Alpha and Beta
    and the term "al", the one rendered row is Alpha's, and a click on it
    hands the callback the option, not the option's value. *)
Lemma C2_search_callback_gets_option_not_value :
  fst (dispatch (twoOptions false) someDom (Change "al") initial)
  = openWith "al"
  /\ render (twoOptions false) (openWith "al") = Some [OptionItem 0 Alpha]
  /\ snd (dispatch (twoOptions false) someDom (Click 0) (openWith "al"))
     = [Call_onSelect (ArgOption Alpha)]
  /\ snd (dispatch (twoOptions false) someDom (Click 0) (openWith "al"))
     <> [Call_onSelect (ArgValue (value Alpha))].
Proof.
  split; [reflexivity|]. split; [reflexivity|]. split; [reflexivity|].
  intros H. discriminate H.
Qed.

(** ** The create-new row *)

Lemma includes_refl (s : string) : JS.includes s s = true.
Proof.
  apply includes_iff. exists EmptyString, EmptyString. simpl.
  induction s as [|c s IH]; simpl; [reflexivity | now rewrite <- IH].
Qed.

Lemma nameEquals_filteredOptions (p : Props) (s : State) :
  existsb (fun option =>
             JS.strictEq (JS.toLowerCase (name option))
                         (JS.toLowerCase (searchTerm s)))
          (filteredOptions p s) = false
  <-> forall o, In o (Search.options p) ->
                ~ EqualUpToCase (name o) (searchTerm s).
Proof.
  unfold EqualUpToCase, JS.strictEq. split.
  - intros H o Ho E.
    assert (Hin : In o (filteredOptions p s)).
    { apply filter_In. split; [exact Ho|]. rewrite E. apply includes_refl. }
    assert (Hex : existsb (fun option =>
                     String.eqb (JS.toLowerCase (name option))
                                (JS.toLowerCase (searchTerm s)))
                   (filteredOptions p s) = true).
    { apply existsb_exists. exists o. split; [exact Hin|].
      now apply String.eqb_eq. }
    congruence.
  - intros H. apply not_true_is_false. intros Hex.
    apply existsb_exists in Hex as (o & Hin & E).
    apply filter_In in Hin as [Ho _]. apply String.eqb_eq in E.
    exact (H o Ho E).
Qed.

Lemma showCreateLabel_iff (p : Props) (s : State) :
  showCreateLabel p s = true
  <-> onCreateLabel p = true
      /\ JS.trim (searchTerm s) <> ""
      /\ forall o, In o (Search.options p) ->
                   ~ EqualUpToCase (name o) (searchTerm s).
Proof.
  unfold showCreateLabel.
  rewrite !andb_true_iff, !negb_true_iff, nameEquals_filteredOptions.
  unfold JS.strictEq. rewrite String.eqb_neq. tauto.
Qed.

Lemma In_menu_CreateLabelItem (p : Props) (s : State) (t : string) :
  In (CreateLabelItem t) (menu p s)
  <-> showCreateLabel p s = true /\ t = searchTerm s.
Proof.
  unfold menu. rewrite !in_app_iff. split.
  - intros [H | [H | H]].
    + apply In_mapi_OptionItem in H as (j & o & E & _). discriminate.
    + destruct (showCreateLabel p s); simpl in H; [|tauto].
      destruct H as [H | []]. injection H as <-. split; reflexivity.
    + destruct (showNoMatches p s); simpl in H; [|tauto].
      destruct H as [H | []]; discriminate.
  - intros [-> ->]. right. left. now left.
Qed.



(** The scenario of the spec: no options, a creation callback, "NewTag". *)
Example create_NewTag :
  render (noOptions true) (openWith "NewTag")
  = Some [CreateLabelItem "NewTag"]
  /\ dispatch (noOptions true) someDom (Click 0) (openWith "NewTag")
     = ({| isOpen := false; searchTerm := "" |},
        [Call_onCreateLabel (ArgString "NewTag")]).
Proof. split; reflexivity. Qed.


(** ** No matches *)

(** C6: in the open [SearchMultiSelectDropdown], when no option passes the
    filter and no create-new row is offered (in particular when no creation
    callback is supplied, or the search term is empty), the menu is the
    single "No matches found" row; rendering it calls no callback, and a
    click on it changes nothing. *)
Theorem C6_no_matches_indicator :
  forall (p : Search.Props) (d : Search.Dom) (s : Search.State),
    isOpen s = true ->
    filteredOptions p s = [] ->
    showCreateLabel p s = false
    \/ onCreateLabel p = false
    \/ searchTerm s = "" ->
    render p s = Some [NoMatchesFound]
    /\ dispatch p d (Click 0) s = (s, []).
Proof.
  intros p d s Hopen Hf Hno.
  assert (Hc : showCreateLabel p s = false
               /\ showNoMatches p s = true).
  { unfold showCreateLabel, showNoMatches. rewrite Hf. simpl.
    rewrite andb_true_r.
    destruct Hno as [H | [H | H]].
    - unfold showCreateLabel in H. rewrite Hf in H. simpl in H.
      rewrite andb_true_r in H. split; [exact H|].
      destruct (onCreateLabel p); simpl in *; [|reflexivity].
      now apply negb_false_iff in H.
    - rewrite H. split; reflexivity.
    - rewrite H. simpl. rewrite andb_false_r, orb_true_r. split; reflexivity. }
  destruct Hc as [Hc Hm].
  assert (Hr : render p s = Some [NoMatchesFound]).
  { unfold render, menu. now rewrite Hopen, Hf, Hc, Hm. }
  split; [exact Hr|].
  unfold dispatch. rewrite Hr. reflexivity.
Qed.

Lemma C6_no_matches_indicator_witness :
  render (twoOptions false) (openWith "zzz") = Some [NoMatchesFound]
  /\ dispatch (twoOptions false) someDom (Click 0) (openWith "zzz")
     = (openWith "zzz", []).
Proof.
  apply (C6_no_matches_indicator (twoOptions false) someDom (openWith "zzz")).
  - reflexivity.
  - reflexivity.
  - right. left. reflexivity.
Defined.

(** ** Typing into the search input *)

(** C7: a change of the search input to [v] stores [v] as the search term,
    calls no callback, and leaves the widget Closed when [v] is empty and
    Open when it is not. *)
Theorem C7_change_opens_iff_nonempty :
  forall (p : Search.Props) (d : Search.Dom) (s : Search.State) (v : string),
    let s' := fst (dispatch p d (Change v) s) in
    searchTerm s' = v
    /\ snd (dispatch p d (Change v) s) = []
    /\ (v = "" -> isOpen s' = false)
    /\ (v <> "" -> isOpen s' = true).
Proof.
  intros p d s v. destruct v as [|c v]; simpl.
  - repeat split. intros H. now contradiction H.
  - repeat split. discriminate.
Qed.

(** ** Outside clicks *)

(** C4: a mousedown delivered to an open widget closes it when the target
    is outside both the anchor and the floating panel, and leaves its state
    as it is when the target is inside either; this for
    [SearchMultiSelectDropdown] (root [div] and portalled menu) and for
    [CustomDropdown] (root [div], which holds the panel).  With a
    reference not mounted the handler returns the state unchanged. *)
Theorem C4_mousedown_outside_closes :
  forall (d : Search.Dom) (s : Search.State)
         (d' : CustomDropdown.Dom) (s' : CustomDropdown.State)
         (target : Node),
    isOpen s = true ->
    CustomDropdown.isOpen s' = true ->
    let after :=
      handleClickOutside (dropdownRef d) (dropdownMenuRef d s) target s in
    let after' :=
      CustomDropdown.handleClickOutside
        (CustomDropdown.dropdownRef d' s') target s' in
    (dropdownDiv d target = false -> menuDiv d target = false ->
     isOpen (fst after) = false /\ snd after = [])
    /\ (dropdownDiv d target = true \/ menuDiv d target = true ->
        after = (s, []))
    /\ (CustomDropdown.anchor d' target = false ->
        CustomDropdown.panel d' target = false ->
        CustomDropdown.isOpen (fst after') = false /\ snd after' = [])
    /\ (CustomDropdown.anchor d' target = true
        \/ CustomDropdown.panel d' target = true ->
        after' = (s', []))
    /\ (forall r, handleClickOutside None r target s = (s, [])
                  /\ handleClickOutside r None target s = (s, []))
    /\ CustomDropdown.handleClickOutside None target s' = (s', []).
Proof.
  intros d s d' s' target Hopen Hopen' after after'.
  subst after after'.
  unfold handleClickOutside, CustomDropdown.handleClickOutside,
    dropdownRef, dropdownMenuRef, CustomDropdown.dropdownRef.
  rewrite Hopen, Hopen'. simpl.
  split; [|split; [|split; [|split; [|split]]]].
  - intros Ha Hm. rewrite Ha, Hm. split; reflexivity.
  - intros [H | H]; rewrite H; simpl; [reflexivity|].
    now rewrite andb_false_r.
  - intros Ha Hp. rewrite Ha, Hp. split; reflexivity.
  - intros [H | H]; rewrite H; simpl; [reflexivity|].
    now rewrite orb_true_r.
  - intros r. split; [reflexivity|].
    destruct r; simpl; [|reflexivity]. now rewrite andb_false_r.
  - reflexivity.
Qed.

Lemma C4_mousedown_outside_closes_witness :
  isOpen (openWith "al") = true
  /\ CustomDropdown.isOpen {| CustomDropdown.isOpen := true |} = true
  /\ isOpen (fst (handleClickOutside (dropdownRef someDom)
                    (dropdownMenuRef someDom (openWith "al")) 42
                    (openWith "al"))) = false
  /\ CustomDropdown.isOpen
       (fst (CustomDropdown.handleClickOutside
               (CustomDropdown.dropdownRef customDom
                  {| CustomDropdown.isOpen := true |})
               42 {| CustomDropdown.isOpen := true |})) = false.
Proof.
  split; [reflexivity|]. split; [reflexivity|].
  destruct (C4_mousedown_outside_closes someDom (openWith "al") customDom
              {| CustomDropdown.isOpen := true |} 42 eq_refl eq_refl)
    as (Hs & _ & Hc & _).
  split.
  - apply Hs; reflexivity.
  - apply Hc; reflexivity.
Defined.

(** The scenario of the spec: open widget, target inside the menu. *)
Example mousedown_inside_menu_stays_open :
  dispatch (twoOptions false) someDom (MouseDown 12) (openWith "al")
  = (openWith "al", []).
Proof. reflexivity. Qed.

(** ** What touches the search term *)

(** C9: an outside mousedown on [SearchMultiSelectDropdown] leaves the
    search term as it is, calls no callback, and changes at most the open
    flag; and an event that changes the search term is a change of the
    input or a click on a rendered option row or create-new row. *)
Theorem C9_search_term_frame :
  forall (p : Search.Props) (d : Search.Dom) (s : Search.State),
    (forall target,
        searchTerm (fst (dispatch p d (MouseDown target) s)) = searchTerm s
        /\ snd (dispatch p d (MouseDown target) s) = []
        /\ (fst (dispatch p d (MouseDown target) s) = s
            \/ fst (dispatch p d (MouseDown target) s)
               = {| isOpen := false; searchTerm := searchTerm s |}))
    /\ (forall e,
           searchTerm (fst (dispatch p d e s)) <> searchTerm s ->
           (exists v, e = Change v)
           \/ (exists i items, e = Click i /\ render p s = Some items
                 /\ ((exists index o,
                         nth_error items i = Some (OptionItem index o))
                     \/ exists t,
                         nth_error items i = Some (CreateLabelItem t)))).
Proof.
  intros p d s. split.
  - intros target. unfold dispatch, handleClickOutside, when.
    match goal with |- context [if ?c then _ else _] => destruct c end;
      simpl; auto.
  - intros e H. destruct e as [v | | | target | i]; simpl in H.
    + left. now exists v.
    + now contradiction H.
    + now contradiction H.
    + exfalso. apply H. unfold handleClickOutside, when.
      match goal with |- context [if ?c then _ else _] => destruct c end;
        reflexivity.
    + right. destruct (render p s) as [items|] eqn:Hr; simpl in H;
        [|now contradiction H].
      exists i, items. split; [reflexivity|]. split; [reflexivity|].
      destruct (nth_error items i) as [[index o | t |]|] eqn:Hn; simpl in H.
      * left. now exists index, o.
      * right. now exists t.
      * now contradiction H.
      * now contradiction H.
Qed.

(** ** The sentinel row *)

(** C5: with [includeDefault] enabled, the rows of [DefaultDropdown] are
    the "Default" row followed by the option rows in order; selecting the
    "Default" row calls the selection callback once, with [null], which is
    no option's value, and closes the dropdown. *)
Theorem C5_default_row_selects_null :
  forall (q : DefaultDropdown.Props) (t : DefaultDropdown.State),
    DefaultDropdown.includeDefault q = Some true ->
    DefaultDropdown.Dropdown q
    = DefaultDropdown.defaultElement q
      :: map (DefaultDropdown.optionElement q) (DefaultDropdown.options q)
    /\ DefaultDropdown.el_name (DefaultDropdown.defaultElement q) = "Default"
    /\ DefaultDropdown.el_onSelect (DefaultDropdown.defaultElement q) t
       = ({| DefaultDropdown.isOpen := false |}, [Call_onSelect ArgNull])
    /\ DefaultDropdown.clickElement {| DefaultDropdown.isOpen := true |}
         (DefaultDropdown.defaultElement q)
         {| DefaultDropdown.isOpen := true |}
       = ({| DefaultDropdown.isOpen := false |}, [Call_onSelect ArgNull])
    /\ (forall o : StringOrNumberOption, ArgNull <> ArgValue (value o)).
Proof.
  intros q t H. unfold DefaultDropdown.Dropdown. rewrite H. simpl.
  repeat split. intros o E. discriminate E.
Qed.

Lemma C5_default_row_selects_null_witness :
  DefaultDropdown.includeDefault defaultProps = Some true
  /\ DefaultDropdown.Dropdown defaultProps
     = [ DefaultDropdown.defaultElement defaultProps;
         DefaultDropdown.optionElement defaultProps Alpha;
         DefaultDropdown.optionElement defaultProps Beta ]
  /\ DefaultDropdown.el_onSelect (DefaultDropdown.defaultElement defaultProps)
       {| DefaultDropdown.isOpen := true |}
     = ({| DefaultDropdown.isOpen := false |}, [Call_onSelect ArgNull]).
Proof.
  split; [reflexivity|].
  destruct (C5_default_row_selects_null defaultProps
              {| DefaultDropdown.isOpen := true |} eq_refl)
    as (H1 & _ & H3 & _).
  split; [exact H1 | exact H3].
Defined.

End SearchMultiSelectDropdownProofs.

(** ** Starter messages *)

Section StarterMessagesProofs.
Import StarterMessages.

Lemma nth_error_firstn_Some {A : Type} (n i : nat) (l : list A) (x : A) :
  nth_error (firstn n l) i = Some x -> nth_error l i = Some x.
Proof.
  revert i l; induction n as [|n IH]; intros i l H.
  - destruct i; discriminate H.
  - destruct l as [|a l]; [destruct i; discriminate H|].
    destruct i as [|i]; [exact H | exact (IH _ _ H)].
Qed.

(** C10: with the [isMobile] flag of the settings set, [StarterMessages]
    renders at most 2 buttons, and otherwise (no settings, flag absent or
    false) at most 4: exactly the minimum of that bound and the number of
    starter messages; the buttons stand for a prefix of the persona's
    [starter_messages], in order, the i-th button carrying the name of
    the i-th message and submitting its text; and with no persona, no
    list or an empty list nothing is rendered. *)
Theorem C10_starter_buttons_prefix :
  forall (settings : option Settings)
         (currentPersona : option Persona),
    let buttons := render settings currentPersona in
    let messages :=
      match currentPersona with
      | Some persona =>
          match starter_messages persona with
          | Some msgs => msgs
          | None => []
          end
      | None => []
      end in
    (forall st, settings = Some st -> isMobile st = Some true ->
                length buttons <= 2
                /\ length buttons = Nat.min 2 (length messages))
    /\ (settings = None
        \/ (exists st, settings = Some st /\ isMobile st <> Some true) ->
        length buttons = Nat.min 4 (length messages))
    /\ length buttons <= 4
    /\ (exists first rest,
           messages = first ++ rest /\ buttons = map button first)
    /\ (forall i b, nth_error buttons i = Some b ->
          exists m, nth_error messages i = Some m
                    /\ label b = sm_name m
                    /\ onClick b tt
                       = (tt, [Call_onSubmit (ArgString (message m))]))
    /\ (currentPersona = None
        \/ (exists persona, currentPersona = Some persona
              /\ (starter_messages persona = None
                  \/ starter_messages persona = Some [])) ->
        buttons = []).
Proof.
  intros settings currentPersona buttons messages.
  assert (Hshown : shown settings currentPersona
                   = firstn (if mobile settings then 2 else 4) messages).
  { subst messages. unfold shown, slice0.
    destruct currentPersona as [persona|];
      [|now destruct (mobile settings)].
    destruct (starter_messages persona) as [[|m msgs]|];
      now destruct (mobile settings). }
  assert (Hlen : length buttons
                 = Nat.min (if mobile settings then 2 else 4)
                           (length messages)).
  { subst buttons. unfold render. rewrite length_map, Hshown.
    apply length_firstn. }
  split; [|split; [|split; [|split; [|split]]]].
  - intros st -> Hst. rewrite Hlen. unfold mobile. rewrite Hst.
    split; [lia | reflexivity].
  - intros H. rewrite Hlen.
    assert (E : mobile settings = false).
    { destruct H as [-> | (st & -> & Hst)]; [reflexivity|].
      unfold mobile. destruct (isMobile st) as [[|]|]; try reflexivity.
      now contradiction Hst. }
    now rewrite E.
  - rewrite Hlen. destruct (mobile settings); lia.
  - exists (shown settings currentPersona),
      (skipn (if mobile settings then 2 else 4) messages).
    split; [|reflexivity]. rewrite Hshown. symmetry. apply firstn_skipn.
  - intros i b Hn. subst buttons. unfold render in Hn.
    rewrite nth_error_map in Hn.
    destruct (nth_error (shown settings currentPersona) i) as [m|] eqn:Hm;
      [|discriminate].
    injection Hn as <-. exists m. rewrite Hshown in Hm.
    apply nth_error_firstn_Some in Hm. repeat split. exact Hm.
  - subst buttons. unfold render.
    intros [-> | (persona & -> & [H | H])]; unfold shown; try rewrite H;
      reflexivity.
Qed.

(** Six messages with the flag set give the first two, and the first four
    without settings. *)
Lemma C10_starter_buttons_prefix_witness :
  length (render (Some {| isMobile := Some true |}) (Some sixMessages)) = 2
  /\ length (render None (Some sixMessages)) = 4
  /\ map label (render (Some {| isMobile := Some true |})
                  (Some sixMessages)) = ["a"; "b"].
Proof.
  destruct (C10_starter_buttons_prefix
              (Some {| isMobile := Some true |}) (Some sixMessages))
    as (Hmobile & _).
  destruct (C10_starter_buttons_prefix None (Some sixMessages))
    as (_ & Hdesktop & _).
  split; [|split].
  - exact (proj2 (Hmobile _ eq_refl eq_refl)).
  - apply Hdesktop. now left.
  - reflexivity.
Defined.

(** Six messages: four buttons on a desktop, two on a mobile. *)
Example starter_six_messages :
  let m := fun n => {| sm_name := n; message := "about " ++ n |} in
  let persona :=
    {| starter_messages :=
         Some [m "a"; m "b"; m "c"; m "d"; m "e"; m "f"] |} in
  map label (render None (Some persona)) = ["a"; "b"; "c"; "d"]
  /\ map label (render (Some {| isMobile := Some true |})
                  (Some persona)) = ["a"; "b"].
Proof. split; reflexivity. Qed.

End StarterMessagesProofs.

(** ** Root layout without settings *)

Section RootLayoutProofs.
Import RootLayout.

(** C8: when the settings fetch answers with no settings, [RootLayout]
    returns the page around the static configuration error, whose text
    tells an admin to check the docs and a user to contact their admin;
    the page holds neither the application shell nor the children, and the
    settings were fetched once. *)
Theorem C8_no_settings_renders_error_notice :
  forall (k : Constants) (srv : Server) (children : Html),
    settingsAnswer srv = None ->
    let page := fst (RootLayout k children srv) in
    let fetches := snd (RootLayout k children srv) in
    page = getPageContent k None configurationError
    /\ JS.includes (textContent page)
         "If you're an admin, please check our docs to see how to configure Onyx properly."
       = true
    /\ JS.includes (textContent page)
         "If you're a user, please contact your admin to fix this error."
       = true
    /\ hasElement "AppProvider" page = false
    /\ fetches = [Fetch_fetchSettingsSS; Fetch_fetchAssistantData;
                  Fetch_getCurrentUserSS]
    /\ length (filter (Fetch_eqb Fetch_fetchSettingsSS) fetches) = 1.
Proof.
  intros k srv children H page fetches. subst page fetches.
  unfold RootLayout, bind, all3, bind, fetchSettingsSS, fetchAssistantData,
    getCurrentUserSS, ret.
  rewrite H. cbn [fst snd app].
  split; [reflexivity|].
  destruct k as [ca gtm]. destruct gtm; repeat split; vm_compute;
    reflexivity.
Qed.

Lemma C8_no_settings_renders_error_notice_witness :
  settingsAnswer serverWithoutSettings = None
  /\ fst (RootLayout someConstants (Text "chat") serverWithoutSettings)
     = getPageContent someConstants None configurationError
  /\ hasElement "AppProvider"
       (fst (RootLayout someConstants (Text "chat") serverWithoutSettings))
     = false.
Proof.
  split; [reflexivity|].
  destruct (C8_no_settings_renders_error_notice someConstants
              serverWithoutSettings (Text "chat") eq_refl)
    as (H1 & _ & _ & H4 & _).
  split; [exact H1 | exact H4].
Defined.

End RootLayoutProofs.

(** ** More on the filter *)

Section FilterProofs.
Import SearchMultiSelectDropdown.









Lemma includes_in_empty (t : string) : JS.includes "" t = true <-> t = "".
Proof. destruct t; simpl; split; congruence. Qed.

Lemma toLowerCase_empty_iff (t : string) : JS.toLowerCase t = "" <-> t = "".
Proof. destruct t; simpl; split; congruence. Qed.

(** X3: an option whose name equals the term up to case is always listed,
    and an option with the empty name is listed under the empty term
    only. *)
Theorem filteredOptions_exact_and_empty_names :
  forall (p : Props) (s : State) (o : StringOrNumberOption),
    In o (options p) ->
    (EqualUpToCase (name o) (searchTerm s) -> In o (filteredOptions p s))
    /\ (name o = "" ->
        (In o (filteredOptions p s) <-> searchTerm s = "")).
Proof.
  intros p s o Ho. unfold filteredOptions. rewrite filter_In. split.
  - intros E. split; [exact Ho|]. unfold EqualUpToCase in E.
    rewrite E. apply includes_refl.
  - intros ->. cbn [JS.toLowerCase].
    rewrite includes_in_empty, toLowerCase_empty_iff. tauto.
Qed.

Lemma filteredOptions_exact_and_empty_names_witness :
  In Unnamed (options withUnnamed)
  /\ In Alpha (filteredOptions withUnnamed (openWith "ALPHA"))
  /\ ~ In Unnamed (filteredOptions withUnnamed (openWith "a"))
  /\ In Unnamed (filteredOptions withUnnamed (openWith "")).
Proof.
  split; [simpl; tauto|].
  destruct (filteredOptions_exact_and_empty_names withUnnamed
              (openWith "ALPHA") Alpha) as [Heq _]; [simpl; tauto|].
  destruct (filteredOptions_exact_and_empty_names withUnnamed
              (openWith "a") Unnamed) as [_ Ha]; [simpl; tauto|].
  destruct (filteredOptions_exact_and_empty_names withUnnamed
              (openWith "") Unnamed) as [_ He]; [simpl; tauto|].
  split; [|split].
  - apply Heq. reflexivity.
  - intros Hin. apply (Ha eq_refl) in Hin. discriminate Hin.
  - apply (He eq_refl). reflexivity.
Defined.

(** X18: on names and terms of code units below 256, where lower-casing
    goes unit by unit, the filter lists exactly the options whose name
    has a substring equal to the term up to case. *)
Theorem filteredOptions_below_256_up_to_case :
  forall (p : Props) (s : State) (o : StringOrNumberOption),
    In o (filteredOptions p s)
    <-> In o (options p) /\ OccursUpToCase (name o) (searchTerm s).
Proof.
  intros p s o. unfold filteredOptions.
  now rewrite filter_In, includes_toLowerCase_iff.
Qed.

End FilterProofs.

(** ** More on the menu and the events *)

Section MenuProofs.
Import SearchMultiSelectDropdown.

Lemma nth_error_mapi {A B : Type} (f : nat -> A -> B) (i k : nat)
      (l : list A) :
  nth_error (mapi f i l) k = option_map (f (i + k)) (nth_error l k).
Proof.
  revert i k; induction l as [|x l IH]; intros i k.
  - destruct k; reflexivity.
  - destruct k as [|k]; simpl.
    + now rewrite Nat.add_0_r.
    + rewrite IH. now rewrite Nat.add_succ_r.
Qed.

Lemma length_mapi {A B : Type} (f : nat -> A -> B) (i : nat) (l : list A) :
  length (mapi f i l) = length l.
Proof.
  revert i; induction l as [|x l IH]; intros i; simpl;
    [reflexivity | now rewrite IH].
Qed.

Lemma mapi_map {A B : Type} (g : A -> B) (i : nat) (l : list A) :
  mapi (fun _ x => g x) i l = map g l.
Proof.
  revert i; induction l as [|x l IH]; intros i; simpl;
    [reflexivity | now rewrite IH].
Qed.

Lemma In_mapi_KeyIndex {A : Type} (k i : nat) (l : list A) :
  In (KeyIndex k) (mapi (fun j _ => KeyIndex j) i l) -> i <= k.
Proof.
  revert i; induction l as [|x l IH]; intros i; simpl; [tauto|].
  intros [[= ->] | H]; [lia|]. apply IH in H. lia.
Qed.

Lemma NoDup_mapi_KeyIndex {A : Type} (i : nat) (l : list A) :
  NoDup (mapi (fun j _ => KeyIndex j) i l).
Proof.
  revert i; induction l as [|x l IH]; intros i; simpl; constructor.
  - intros H. apply In_mapi_KeyIndex in H. lia.
  - apply IH.
Qed.

Lemma NoDup_KeyName_filter (f : StringOrNumberOption -> bool)
      (l : list StringOrNumberOption) :
  NoDup (map name l) ->
  NoDup (map (fun o => KeyName (name o)) (filter f l)).
Proof.
  induction l as [|a l IH]; simpl; intros H; [constructor|].
  inversion H as [|n ns Hn Hl]; subst.
  destruct (f a); [|now apply IH].
  simpl. constructor; [|now apply IH].
  intros Hin. apply in_map_iff in Hin as (x & [= E] & Hx).
  apply filter_In in Hx as [Hx _]. apply Hn. rewrite <- E.
  now apply in_map.
Qed.

Lemma NoDup_optionKeys (p : Props) (s : State) :
  DistinctKeys p -> NoDup (optionKeys p s).
Proof.
  unfold optionKeys, optionKey. intros [H | H].
  - rewrite H. apply NoDup_mapi_KeyIndex.
  - destruct (itemComponent p); [|apply NoDup_mapi_KeyIndex].
    rewrite mapi_map. unfold filteredOptions.
    now apply NoDup_KeyName_filter.
Qed.

(** X4: when the option rows have distinct keys (rows keyed by index, or
    no two options of the same name), the keys of one render are pairwise
    distinct, and the open menu is never empty and has one of two shapes:
    the single "No matches found" row, or the option rows followed by at
    most the create-new row; "No matches found" never stands beside
    another row. *)
Theorem menu_shape :
  forall (p : Props) (s : State),
    DistinctKeys p ->
    NoDup (optionKeys p s)
    /\ length (optionKeys p s) = length (filteredOptions p s)
    /\ menu p s <> []
    /\ (menu p s = [NoMatchesFound]
        \/ menu p s = mapi OptionItem 0 (filteredOptions p s)
        \/ menu p s = mapi OptionItem 0 (filteredOptions p s)
                      ++ [CreateLabelItem (searchTerm s)])
    /\ (In NoMatchesFound (menu p s) ->
        menu p s = [NoMatchesFound] /\ filteredOptions p s = []).
Proof.
  intros p s Hkeys.
  split; [now apply NoDup_optionKeys|].
  split; [unfold optionKeys; apply length_mapi|].
  clear Hkeys.
  assert (Hnone : forall l, ~ In NoMatchesFound (mapi OptionItem 0 l)).
  { intros l H. apply In_mapi_OptionItem in H as (j & o & E & _).
    discriminate. }
  unfold menu, showCreateLabel, showNoMatches.
  destruct (filteredOptions p s) as [|o l] eqn:Hf.
  - simpl. rewrite andb_true_r.
    destruct (onCreateLabel p); simpl;
      destruct (JS.strictEq (JS.trim (searchTerm s)) ""); simpl;
      (split; [discriminate|]); (split; [tauto|]).
    + intros _. split; reflexivity.
    + intros [H | []]. discriminate.
    + intros _. split; reflexivity.
    + intros _. split; reflexivity.
  - cbn [length Nat.eqb andb app]. rewrite app_nil_r.
    split; [|split].
    + simpl. discriminate.
    + match goal with |- context [if ?c then _ else _] => destruct c end.
      * right. right. reflexivity.
      * right. left. now rewrite app_nil_r.
    + intros H. exfalso. apply in_app_or in H as [H | H].
      * exact (Hnone _ H).
      * match type of H with context [if ?c then _ else _] =>
          destruct c end; simpl in H; [|exact H].
        destruct H as [H | []]. discriminate.
Qed.

Lemma menu_shape_witness :
  DistinctKeys withUnnamed
  /\ optionKeys withUnnamed (openWith "") = [KeyName "Alpha"; KeyName ""]
  /\ NoDup (optionKeys withUnnamed (openWith ""))
  /\ menu withUnnamed (openWith "") <> [].
Proof.
  assert (H : DistinctKeys withUnnamed).
  { right. simpl. repeat constructor; simpl; intuition discriminate. }
  destruct (menu_shape withUnnamed (openWith "") H) as (Hk & _ & Hm & _).
  split; [exact H|]. split; [reflexivity|]. split; [exact Hk | exact Hm].
Defined.

Lemma nth_error_menu_option (p : Props) (s : State) (k : nat)
      (o : StringOrNumberOption) :
  nth_error (filteredOptions p s) k = Some o ->
  nth_error (menu p s) k = Some (OptionItem k o).
Proof.
  intros Hk. unfold menu. rewrite nth_error_app1.
  - rewrite nth_error_mapi, Hk. reflexivity.
  - rewrite length_mapi. apply nth_error_Some. congruence.
Qed.

(** X5: when the option rows have distinct keys (rows keyed by index, or
    no two options of the same name), the rows follow the filtered list
    position by position: the k-th filtered option is in row k, carries
    the index k and a key no other row has, and a click on row k of the
    open widget selects it and resets the widget. *)
Theorem click_row_selects_kth_filtered :
  forall (p : Props) (d : Dom) (s : State) (k : nat)
         (o : StringOrNumberOption),
    DistinctKeys p ->
    isOpen s = true ->
    nth_error (filteredOptions p s) k = Some o ->
    nth_error (menu p s) k = Some (OptionItem k o)
    /\ nth_error (optionKeys p s) k = Some (optionKey p k o)
    /\ (forall j, nth_error (optionKeys p s) j = Some (optionKey p k o) ->
                  j = k)
    /\ dispatch p d (Click k) s = (initial, [Call_onSelect (ArgOption o)]).
Proof.
  intros p d s k o Hkeys Hopen Hk.
  pose proof (nth_error_menu_option p s k o Hk) as Hrow.
  assert (Hkey : nth_error (optionKeys p s) k = Some (optionKey p k o)).
  { unfold optionKeys. rewrite nth_error_mapi, Hk. reflexivity. }
  split; [exact Hrow|]. split; [exact Hkey|]. split.
  - intros j Hj. pose proof (NoDup_optionKeys p s Hkeys) as Hnd.
    rewrite NoDup_nth_error in Hnd. apply Hnd.
    + apply nth_error_Some. congruence.
    + congruence.
  - unfold dispatch, render. rewrite Hopen, Hrow. reflexivity.
Qed.

Lemma click_row_selects_kth_filtered_witness :
  DistinctKeys (twoOptions false)
  /\ isOpen (openWith "a") = true
  /\ nth_error (filteredOptions (twoOptions false) (openWith "a")) 1
     = Some Beta
  /\ dispatch (twoOptions false) someDom (Click 1) (openWith "a")
     = (initial, [Call_onSelect (ArgOption Beta)]).
Proof.
  assert (H : DistinctKeys (twoOptions false)) by (left; reflexivity).
  split; [exact H|]. split; [reflexivity|]. split; [reflexivity|].
  apply (click_row_selects_kth_filtered (twoOptions false) someDom
           (openWith "a") 1 Beta H); reflexivity.
Defined.

Ltac nonclick :=
  split; [tauto | split; [lia | intros _ Hc; discriminate Hc]].

Lemma dispatch_calls (p : Props) (d : Dom) (e : Event) (s : State) :
  (forall c, In c (snd (dispatch p d e s)) -> Legitimate p c)
  /\ length (snd (dispatch p d e s)) <= (if isClick e then 1 else 0)
  /\ (isOpen s = false -> isClick e = true -> dispatch p d e s = (s, [])).
Proof.
  destruct e as [v | | | target | i].
  - destruct v; simpl; nonclick.
  - simpl. nonclick.
  - simpl. nonclick.
  - unfold dispatch, handleClickOutside, when.
    match goal with |- context [if ?c then _ else _] => destruct c end;
      simpl; nonclick.
  - unfold dispatch, render. destruct (isOpen s) eqn:Hopen.
    + destruct (nth_error (menu p s) i) as [[index o | t |]|] eqn:Hn;
        simpl; (split; [|split; [lia | discriminate]]).
      * intros c [<- | []]. left. exists o. split; [reflexivity|].
        apply nth_error_In, In_menu_OptionItem in Hn.
        unfold filteredOptions in Hn. apply filter_In in Hn. tauto.
      * intros c [<- | []]. right. exists (searchTerm s).
        split; [reflexivity|].
        apply nth_error_In, In_menu_CreateLabelItem in Hn as [Hn _].
        now apply showCreateLabel_iff.
      * tauto.
      * tauto.
    + simpl. split; [tauto | split; [lia | reflexivity]].
Qed.



(** X7: an event invokes at most one callback, and only a click does: a
    sequence of events makes at most as many invocations as it has
    clicks. *)
Theorem run_calls_at_most_clicks :
  forall (p : Props) (d : Dom) (events : list Event) (s : State),
    length (snd (run p d events s)) <= length (filter isClick events).
Proof.
  intros p d events. induction events as [|e rest IH]; intros s.
  - simpl. lia.
  - cbn [run]. unfold andThen.
    pose proof (dispatch_calls p d e s) as (_ & Hle & _).
    destruct (dispatch p d e s) as [s1 c1] eqn:E1.
    specialize (IH s1).
    destruct (run p d rest s1) as [s2 c2] eqn:E2. cbn [snd] in *.
    rewrite length_app. simpl. destruct (isClick e); simpl; lia.
Qed.

End MenuProofs.

(** ** Blank terms *)

Section BlankProofs.
Import SearchMultiSelectDropdown.






End BlankProofs.

(** ** Outside clicks never open *)

Section OutsideClickProofs.

(** X9: whatever the references hold, a mousedown never opens a widget,
    never touches the search term and calls no callback; and in a closed
    [SearchMultiSelectDropdown], whose menu is not mounted, a mousedown
    anywhere changes nothing. *)
Theorem mousedown_never_opens :
  forall (r r' : Ref) (target : Node)
         (s : SearchMultiSelectDropdown.State)
         (s' : CustomDropdown.State),
    let after :=
      SearchMultiSelectDropdown.handleClickOutside r r' target s in
    let after' := CustomDropdown.handleClickOutside r target s' in
    (SearchMultiSelectDropdown.isOpen (fst after) = true ->
     SearchMultiSelectDropdown.isOpen s = true)
    /\ SearchMultiSelectDropdown.searchTerm (fst after)
       = SearchMultiSelectDropdown.searchTerm s
    /\ snd after = []
    /\ (CustomDropdown.isOpen (fst after') = true ->
        CustomDropdown.isOpen s' = true)
    /\ snd after' = []
    /\ (forall p d,
           SearchMultiSelectDropdown.isOpen s = false ->
           SearchMultiSelectDropdown.dispatch p d
             (SearchMultiSelectDropdown.MouseDown target) s = (s, [])).
Proof.
  intros r r' target s s' after after'. subst after after'.
  unfold SearchMultiSelectDropdown.handleClickOutside,
    CustomDropdown.handleClickOutside, when.
  repeat match goal with
         | |- context [if ?c then _ else _] => destruct c
         end; simpl; repeat split; try discriminate; try tauto;
    intros p d H; unfold SearchMultiSelectDropdown.dispatch,
      SearchMultiSelectDropdown.handleClickOutside,
      SearchMultiSelectDropdown.dropdownMenuRef;
    rewrite H; simpl; now rewrite andb_false_r.
Qed.

(** X10: [ControlledPopup] asks its owner to close, once, exactly on a
    mousedown outside its children and (while open) its popup; it never
    asks to open, and with the reference not mounted it asks nothing. *)
Theorem ControlledPopup_asks_to_close_outside :
  forall (d : ControlledPopup.Dom) (isOpen : bool) (target : Node),
    let calls :=
      ControlledPopup.handleClickOutside
        (ControlledPopup.filtersRef d isOpen) target in
    (calls = [ControlledPopup.Call_setIsOpen false]
     <-> ControlledPopup.children d target = false
         /\ (isOpen = true -> ControlledPopup.popup d target = false))
    /\ (calls = []
        <-> ControlledPopup.children d target = true
            \/ (isOpen = true /\ ControlledPopup.popup d target = true))
    /\ ~ In (ControlledPopup.Call_setIsOpen true) calls
    /\ ControlledPopup.handleClickOutside None target = [].
Proof.
  intros d isOpen target calls. subst calls.
  unfold ControlledPopup.handleClickOutside, ControlledPopup.filtersRef.
  simpl.
  destruct (ControlledPopup.children d target), isOpen,
    (ControlledPopup.popup d target); simpl;
    repeat split; try discriminate; try tauto;
    try (intros [H | []]; discriminate H);
    try (intros [H1 H2]; try discriminate H1; specialize (H2 eq_refl);
         discriminate H2);
    try (intros [H | [H1 H2]]; discriminate).
Qed.

End OutsideClickProofs.

(** ** DefaultDropdown: what is shown as selected *)

Section DefaultDropdownProofs.
Import DefaultDropdown.

Lemma valueIsSelected_iff (v : StringOrNumber) (sel : option string) :
  valueIsSelected v sel = true <-> exists s, sel = Some s /\ v = Str s.
Proof.
  unfold valueIsSelected. destruct sel as [s|].
  - destruct v as [t | n]; simpl.
    + rewrite String.eqb_eq. split.
      * intros ->. now exists s.
      * intros (s' & [= ->] & [= ->]). reflexivity.
    + split; [discriminate | intros (s' & _ & H); discriminate H].
  - split; [discriminate | intros (s' & H & _); discriminate H].
Qed.

Lemma find_first {A : Type} (f : A -> bool) (l : list A) (x : A) :
  find f l = Some x ->
  exists before after,
    l = before ++ x :: after /\ f x = true
    /\ forall y, In y before -> f y = false.
Proof.
  induction l as [|a l IH]; simpl; [discriminate|].
  destruct (f a) eqn:E.
  - intros [= <-]. exists [], l. repeat split; [exact E | intros y []].
  - intros H. destruct (IH H) as (before & after & -> & Hx & Hb).
    exists (a :: before), after. repeat split; [exact Hx|].
    intros y [<- | Hy]; [exact E | now apply Hb].
Qed.

(** X11: the "Default" row is marked selected exactly when nothing is
    selected ([null]); an option row is marked exactly when its value is
    the selected string, so with nothing selected no option row is
    marked, and an option whose value is a number is never marked. *)
Theorem DefaultDropdown_selected_marks :
  forall (p : Props) (o : StringOrNumberOption),
    (el_isSelected (defaultElement p) = true <-> selected p = None)
    /\ (el_isSelected (optionElement p o) = true
        <-> exists s, selected p = Some s /\ value o = Str s)
    /\ (el_isSelected (defaultElement p) = true ->
        el_isSelected (optionElement p o) = false)
    /\ (forall n, value o = Num n ->
                  el_isSelected (optionElement p o) = false).
Proof.
  intros p o. cbn [el_isSelected defaultElement optionElement].
  split; [|split; [|split]].
  - unfold isNull. destruct (selected p); split; congruence.
  - apply valueIsSelected_iff.
  - unfold isNull, valueIsSelected. destruct (selected p);
      [discriminate | reflexivity].
  - intros n ->. unfold valueIsSelected. now destruct (selected p).
Qed.

(** X12: the text on the trigger is never empty; when an option carries
    the selected value it is the name of the first such option in the
    list (unless that name is empty), and that option's row is marked
    selected; when nothing is selected it is the fallback: the default
    value or "Default" with [includeDefault], "Select an option..."
    without. *)
Theorem DefaultDropdown_Content_text :
  forall (p : Props),
    Content p <> ""
    /\ (forall o, selectedOption p = Some o ->
          (exists s before after,
              selected p = Some s /\ value o = Str s
              /\ options p = before ++ o :: after
              /\ forall y, In y before -> value y <> Str s)
          /\ el_isSelected (optionElement p o) = true
          /\ (name o <> "" -> Content p = name o))
    /\ (selected p = None ->
        Content p
        = if flag (includeDefault p)
          then orElse (defaultValue p) "Default"
          else "Select an option...").
Proof.
  intros p. split; [|split].
  - unfold Content, orElse.
    destruct (option_map name (selectedOption p)) as [[|c n]|]; simpl;
      try discriminate;
      destruct (flag (includeDefault p)); try discriminate;
      destruct (defaultValue p) as [[|c' d]|]; simpl; discriminate.
  - intros o Ho. unfold selectedOption in Ho.
    destruct (find_first _ _ _ Ho) as (before & after & Hl & Hv & Hb).
    pose proof Hv as Hv'. apply valueIsSelected_iff in Hv' as (s & Hs & Hvs).
    split; [|split].
    + exists s, before, after. repeat split; try assumption.
      intros y Hy E. apply Hb in Hy.
      assert (valueIsSelected (value y) (selected p) = true)
        by (apply valueIsSelected_iff; now exists s).
      congruence.
    + exact Hv.
    + intros Hn. unfold Content, selectedOption. rewrite Ho. simpl.
      destruct (name o); [now contradiction Hn | reflexivity].
  - intros Hsel. unfold Content, selectedOption.
    assert (E : find (fun option =>
                        valueIsSelected (value option) (selected p))
                     (options p) = None).
    { rewrite Hsel. induction (options p) as [|a l IH]; [reflexivity|].
      simpl. exact IH. }
    rewrite E. reflexivity.
Qed.

(** The scenario of the spec: includeDefault, default value "Default",
    nothing selected. *)
Example Content_Default : Content defaultProps = "Default".
Proof. reflexivity. Qed.

(** With the same value twice, the first option names the trigger. *)
Example Content_first_of_duplicates :
  Content {| options :=
               [ {| name := "One"; value := Str "x"; description := None |};
                 {| name := "Two"; value := Str "x"; description := None |} ];
             selected := Some "x";
             includeDefault := None;
             defaultValue := None |} = "One".
Proof. reflexivity. Qed.

End DefaultDropdownProofs.

(** ** Root layout: which page, and the metadata *)

Section RootLayoutPagesProofs.
Import RootLayout.

Lemma RootLayout_unfold (k : Constants) (children : Html) (srv : Server) :
  RootLayout k children srv
  = (getPageContent k (settingsAnswer srv)
       match settingsAnswer srv with
       | None => configurationError
       | Some cs =>
           match product_gating (settings cs) with
           | Some FULL => accessRestricted
           | _ => application children
           end
       end,
     [Fetch_fetchSettingsSS; Fetch_fetchAssistantData;
      Fetch_getCurrentUserSS]).
Proof.
  unfold RootLayout, bind, all3, bind, fetchSettingsSS, fetchAssistantData,
    getCurrentUserSS, ret. cbn [app].
  destruct (settingsAnswer srv) as [cs|]; [|reflexivity].
  destruct (product_gating (settings cs)) as [[|]|]; reflexivity.
Qed.

Lemma hasElement_head (k : Constants) (cs : option CombinedSettings)
      (content : Html) (tag : string) :
  tag <> "html" -> tag <> "head" -> tag <> "meta" -> tag <> "body" ->
  tag <> "div" -> tag <> "PHProvider" -> tag <> "script" ->
  tag <> "Script" ->
  hasElement tag (getPageContent k cs content) = hasElement tag content.
Proof.
  intros H1 H2 H3 H4 H5 H6 H7 H8.
  apply String.eqb_neq in H1, H2, H3, H4, H5, H6, H7, H8.
  rewrite String.eqb_sym in H1, H2, H3, H4, H5, H6, H7, H8.
  unfold getPageContent.
  destruct cs as [[st [sc|]]|]; cbn [customAnalyticsScript];
    destruct (GTM_ENABLED k);
    try destruct (CUSTOM_ANALYTICS_ENABLED k && JS.truthy sc);
    cbn [hasElement existsb app];
    rewrite ?H1, ?H2, ?H3, ?H4, ?H5, ?H6, ?H7, ?H8;
    cbn [orb]; now rewrite ?orb_false_r.
Qed.

(** X13: every run of [RootLayout] starts the same three fetches, each
    once, whatever they answer; the application shell is rendered exactly
    when settings were loaded and the gating is not FULL (an absent
    gating counts as NONE); otherwise the page does not depend on the
    children. *)
Theorem RootLayout_shell_iff_settings_and_not_gated :
  forall (k : Constants) (srv : Server) (children : Html),
    let page := fst (RootLayout k children srv) in
    snd (RootLayout k children srv)
    = [Fetch_fetchSettingsSS; Fetch_fetchAssistantData;
       Fetch_getCurrentUserSS]
    /\ (hasElement "AppProvider" page = true
        <-> exists cs, settingsAnswer srv = Some cs
                       /\ product_gating (settings cs) <> Some FULL)
    /\ (hasElement "AppProvider" page = false ->
        forall children', fst (RootLayout k children' srv) = page)
    /\ (forall cs, settingsAnswer srv = Some cs ->
                   product_gating (settings cs) = Some FULL ->
                   page = getPageContent k (Some cs) accessRestricted).
Proof.
  intros k srv children page. subst page.
  rewrite RootLayout_unfold. cbn [fst snd].
  split; [reflexivity|].
  rewrite hasElement_head by discriminate.
  destruct (settingsAnswer srv) as [cs|] eqn:Hs.
  - destruct (product_gating (settings cs)) as [[|]|] eqn:G.
    + split; [|split].
      * split; [|reflexivity]. intros _. exists cs. split; [reflexivity|].
        rewrite G. discriminate.
      * discriminate.
      * intros cs' [= <-] G'. congruence.
    + split; [|split].
      * split; [discriminate|]. intros (cs' & [= <-] & H). congruence.
      * intros _ children'. rewrite RootLayout_unfold, Hs, G. reflexivity.
      * intros cs' [= <-] _. reflexivity.
    + split; [|split].
      * split; [|reflexivity]. intros _. exists cs. split; [reflexivity|].
        rewrite G. discriminate.
      * discriminate.
      * intros cs' [= <-] G'. congruence.
  - split; [|split].
    + split; [discriminate|]. intros (cs & H & _). discriminate H.
    + intros _ children'. rewrite RootLayout_unfold, Hs. reflexivity.
    + intros cs H. discriminate H.
Qed.

(** X14: the custom analytics script is put into the page head exactly
    when the switch is on and settings were loaded that carry a non-empty
    script; in particular never on the configuration error page. *)
Theorem RootLayout_custom_analytics_script :
  forall (k : Constants) (srv : Server) (children : Html),
    hasElement "script" children = false ->
    (hasElement "script" (fst (RootLayout k children srv)) = true
     <-> CUSTOM_ANALYTICS_ENABLED k = true
         /\ exists cs sc, settingsAnswer srv = Some cs
                          /\ customAnalyticsScript cs = Some sc
                          /\ sc <> "").
Proof.
  intros k srv children Hc. rewrite RootLayout_unfold. cbn [fst].
  set (content := match settingsAnswer srv with
                  | None => configurationError
                  | Some cs => _
                  end).
  assert (Hcontent : hasElement "script" content = false).
  { subst content. destruct (settingsAnswer srv) as [cs|]; [|reflexivity].
    destruct (product_gating (settings cs)) as [[|]|]; try reflexivity;
      cbn [application hasElement existsb String.eqb Ascii.eqb Bool.eqb];
      simpl; now rewrite Hc. }
  unfold getPageContent. cbn [hasElement existsb app].
  destruct (settingsAnswer srv) as [cs|].
  - destruct (customAnalyticsScript cs) as [sc|] eqn:Hs.
    + destruct (CUSTOM_ANALYTICS_ENABLED k); simpl.
      * destruct sc as [|c sc]; simpl.
        -- destruct (GTM_ENABLED k); simpl; rewrite Hcontent; simpl;
             (split; [discriminate|]);
             intros (_ & cs' & sc' & [= <-] & E & Hne); congruence.
        -- split; [|reflexivity]. intros _. split; [reflexivity|].
           exists cs, (String c sc). repeat split; [exact Hs | discriminate].
      * destruct (GTM_ENABLED k); simpl; rewrite Hcontent; simpl;
          (split; [discriminate|]); intros (H & _); discriminate H.
    + destruct (GTM_ENABLED k); simpl; rewrite Hcontent; simpl;
        (split; [discriminate|]);
        intros (_ & cs' & sc' & [= <-] & E & _); congruence.
  - destruct (GTM_ENABLED k); simpl;
      (split; [discriminate|]);
      intros (_ & cs' & sc' & E & _); discriminate E.
Qed.

End RootLayoutPagesProofs.

Section MetadataProofs.
Import RootLayout.

Lemma RootLayout_custom_analytics_script_witness :
  hasElement "script" (Text "chat") = false
  /\ hasElement "script"
       (fst (RootLayout analyticsOn (Text "chat") serverWithScript)) = true
  /\ hasElement "script"
       (fst (RootLayout analyticsOn (Text "chat") serverWithoutSettings))
     <> true.
Proof.
  split; [reflexivity|]. split.
  - apply (RootLayout_custom_analytics_script analyticsOn serverWithScript
             (Text "chat")); [reflexivity|].
    split; [reflexivity|]. eexists _, _.
    split; [reflexivity|]. split; [reflexivity | discriminate].
  - intros H.
    apply (RootLayout_custom_analytics_script analyticsOn
             serverWithoutSettings (Text "chat")) in H; [|reflexivity].
    destruct H as (_ & cs & sc & E & _). discriminate E.
Defined.

(** X15: [generateMetadata] fetches the enterprise settings exactly when
    the paid features are on, and then once; with them off the title is
    "Onyx" and the icon the stock one whatever the server holds; a title
    other than "Onyx" is the application name of the fetched settings, and
    the icon is either the stock one or the custom logo endpoint, the
    latter only when the fetched settings ask for the custom logo. *)
Theorem generateMetadata_branding :
  forall (paid : bool) (buildClientUrl : string -> string)
         (answer : option EnterpriseSettings),
    let m := fst (generateMetadata paid buildClientUrl answer) in
    snd (generateMetadata paid buildClientUrl answer)
    = (if paid then [Fetch_fetchEnterpriseSettingsSS] else [])
    /\ (paid = false ->
        title m = "Onyx" /\ icon m = buildClientUrl "/onyx.ico")
    /\ (title m <> "Onyx" ->
        paid = true
        /\ exists es, answer = Some es
                      /\ application_name es = Some (title m))
    /\ (icon m = buildClientUrl "/onyx.ico"
        \/ icon m = "/api/enterprise-settings/logo"
           /\ paid = true
           /\ exists es, answer = Some es /\ use_custom_logo es = true)
    /\ (forall es, paid = true -> answer = Some es ->
          title m = match application_name es with
                    | Some n => n
                    | None => "Onyx"
                    end
          /\ icon m = if use_custom_logo es
                      then "/api/enterprise-settings/logo"
                      else buildClientUrl "/onyx.ico").
Proof.
  intros paid buildClientUrl answer m. subst m.
  unfold generateMetadata. destruct paid; cbn [fst snd title icon].
  - split; [reflexivity|]. split; [discriminate|]. split; [|split].
    + destruct answer as [[[n|] logo]|]; cbn [application_name].
      * intros _. split; [reflexivity|]. eexists. split; reflexivity.
      * intros H. now contradiction H.
      * intros H. now contradiction H.
    + destruct answer as [[n [|]]|]; cbn [use_custom_logo].
      * right. split; [reflexivity|]. split; [reflexivity|].
        eexists. split; reflexivity.
      * now left.
      * now left.
    + intros es _ ->. split; reflexivity.
  - split; [reflexivity|]. split; [split; reflexivity|]. split; [|split].
    + intros H. now contradiction H.
    + now left.
    + intros es H. discriminate H.
Qed.

(** An empty application name is kept as the title. *)
Example generateMetadata_empty_name :
  title (fst (generateMetadata true (fun path => path)
                (Some {| application_name := Some "";
                         use_custom_logo := false |}))) = "".
Proof. reflexivity. Qed.

End MetadataProofs.

(** ** Starter messages on mobile and desktop *)

Section StarterMessagesMoreProofs.
Import StarterMessages.

Lemma firstn_2_of_4 {A : Type} (l : list A) :
  firstn 4 l = firstn 2 l ++ firstn 2 (skipn 2 l).
Proof.
  destruct l as [|a [|b [|c [|d l]]]]; reflexivity.
Qed.

(** X16: the buttons shown on mobile are the first buttons shown on a
    desktop: the desktop row is the mobile row followed by at most two
    more messages, the third and fourth of the persona's list. *)
Theorem mobile_buttons_prefix_of_desktop :
  forall (mobileSettings desktopSettings : option Settings)
         (currentPersona : option Persona),
    mobile mobileSettings = true ->
    mobile desktopSettings = false ->
    exists more,
      shown desktopSettings currentPersona
      = shown mobileSettings currentPersona ++ more
      /\ length more <= 2
      /\ render desktopSettings currentPersona
         = render mobileSettings currentPersona ++ map button more
      /\ forall persona msgs,
           currentPersona = Some persona ->
           starter_messages persona = Some msgs ->
           more = firstn 2 (skipn 2 msgs).
Proof.
  intros ms ds cp Hm Hd. unfold render, shown, slice0. rewrite Hm, Hd.
  destruct cp as [persona|].
  - destruct (starter_messages persona) as [msgs|] eqn:E.
    + destruct (0 <? length msgs) eqn:Hlen.
      * exists (firstn 2 (skipn 2 msgs)). rewrite <- map_app.
        rewrite <- firstn_2_of_4. repeat split.
        -- apply firstn_le_length.
        -- intros persona' msgs' [= <-] Hmsgs. congruence.
      * exists []. destruct msgs; [|discriminate Hlen].
        repeat split; simpl; try lia.
        intros persona' msgs' [= <-] Hmsgs.
        rewrite E in Hmsgs. now injection Hmsgs as <-.
    + exists []. repeat split; simpl; try lia.
      intros persona' msgs' [= <-] Hmsgs. congruence.
  - exists []. repeat split; simpl; try lia. discriminate.
Qed.

Lemma mobile_buttons_prefix_of_desktop_witness :
  mobile (Some {| isMobile := Some true |}) = true
  /\ mobile None = false
  /\ exists more,
       shown None (Some sixMessages)
       = shown (Some {| isMobile := Some true |}) (Some sixMessages) ++ more
       /\ length more <= 2.
Proof.
  split; [reflexivity|]. split; [reflexivity|].
  destruct (mobile_buttons_prefix_of_desktop
              (Some {| isMobile := Some true |}) None (Some sixMessages)
              eq_refl eq_refl) as (more & H1 & H2 & _).
  exists more. split; [exact H1 | exact H2].
Defined.

End StarterMessagesMoreProofs.

(** ** Typing, then clicking *)

Section TypeAndClickProofs.
Import SearchMultiSelectDropdown.

Lemma create_row_is_last (p : Props) (s : State) :
  showCreateLabel p s = true ->
  nth_error (menu p s) (length (filteredOptions p s))
  = Some (CreateLabelItem (searchTerm s)).
Proof.
  intros H. unfold menu. rewrite H.
  rewrite nth_error_app2; rewrite length_mapi; [|lia].
  now rewrite Nat.sub_diag.
Qed.

(** X17: from the fresh widget, typing a non-empty term opens the menu on
    the filtered options; a click on row k then selects the k-th filtered
    option, and, when the create-new row is shown, it is the row after
    the last option and a click on it creates the typed term; either way
    the widget is back in its initial state after exactly one callback
    invocation. *)
Theorem type_then_click :
  forall (p : Props) (d : Dom) (t : string),
    t <> "" ->
    let s := {| isOpen := true; searchTerm := t |} in
    run p d [Change t] initial = (s, [])
    /\ render p s = Some (menu p s)
    /\ (forall k o,
           nth_error (filteredOptions p s) k = Some o ->
           run p d [Change t; Click k] initial
           = (initial, [Call_onSelect (ArgOption o)]))
    /\ (showCreateLabel p s = true ->
        run p d [Change t; Click (length (filteredOptions p s))] initial
        = (initial, [Call_onCreateLabel (ArgString t)])).
Proof.
  intros p d t Ht s.
  assert (Hc : dispatch p d (Change t) initial = (s, [])).
  { destruct t as [|c t]; [now contradiction Ht | reflexivity]. }
  split; [|split; [reflexivity|split]].
  - cbn [run]. unfold andThen. now rewrite Hc.
  - intros k o Hk. cbn [run]. unfold andThen. rewrite Hc.
    unfold dispatch at 1, render. cbn [isOpen s].
    rewrite (nth_error_menu_option p s k o Hk). reflexivity.
  - intros Hshow. cbn [run]. unfold andThen. rewrite Hc.
    unfold dispatch at 1, render. cbn [isOpen s].
    rewrite (create_row_is_last p s Hshow). reflexivity.
Qed.

Lemma type_then_click_witness :
  "be" <> ""
  /\ run (twoOptions true) someDom [Change "be"; Click 0] initial
     = (initial, [Call_onSelect (ArgOption Beta)])
  /\ run (twoOptions true) someDom [Change "be"; Click 1] initial
     = (initial, [Call_onCreateLabel (ArgString "be")]).
Proof.
  split; [discriminate|].
  destruct (type_then_click (twoOptions true) someDom "be")
    as (_ & _ & Hsel & Hcreate); [discriminate|].
  split.
  - apply (Hsel 0 Beta). reflexivity.
  - apply Hcreate. reflexivity.
Defined.

End TypeAndClickProofs.
